(** * Lankir documentation configuration (docs/conf.py)

    A shallow embedding of the Sphinx configuration module of the Lankir
    repository.  The module is a straight-line sequence of name bindings
    followed by the definition of the [setup] hook; it is embedded as a
    computation in a state-and-exception monad over the module namespace,
    the object heap of the documentation tool and a trace of the effects
    that are visible from outside the file. *)

From stdpp Require Import gmap strings list fin_maps.
From Stdlib Require Import ZArith Ascii.

#[local] Set Warnings "-register-all".
Local Open Scope string_scope.
Local Open Scope list_scope.

(** ** Python values *)

Module Py.

Definition loc := positive.

(** The literals that occur in the file, function objects (named by their
    qualified name) and references to objects owned by the caller. *)
Inductive value : Type :=
| VNone
| VBool (b : bool)
| VInt (n : Z)
| VStr (s : string)
| VList (items : list value)
| VTuple (items : list value)
| VDict (entries : gmap string value)
| VFunc (qualname : string)
| VRef (l : loc).

(** A callable attribute of a foreign object.  [accepts n] tells whether
    its signature binds [n] positional arguments.  Its body receives the
    call arguments and the attribute dictionary of its receiver, and either
    returns a value or raises, leaving an updated attribute dictionary
    behind.  Foreign code is taken to work on its own object only: it has
    no handle on the namespace of the configuration module. *)
Record method : Type := Method {
  accepts : nat → bool;
  body : list value → gmap string value → (string + value) * gmap string value
}.

(** A foreign object, described by what its attributes resolve to: the
    attributes that can be called (methods, functions kept on the instance,
    callable objects) are the entries of [methods], the others are the
    entries of [attrs].  A name stands in one of the two tables; [methods]
    is consulted first. *)
Record object : Type := Object {
  attrs : gmap string value;
  methods : gmap string method
}.

(** Exceptions are split by the frame that raises them.  A failed attribute
    lookup and a call that cannot be made (the attribute is not callable,
    or its signature does not bind the arguments) are raised at the call
    expression written in conf.py; [Foreign] is raised inside the body of
    the foreign callable. *)
Inductive exn : Type :=
| AttributeError (attr : string)
| TypeError (attr : string)
| Foreign (msg : string).

Definition originates_here (e : exn) : bool :=
  match e with
  | AttributeError _ => true
  | TypeError _ => true
  | Foreign _ => false
  end.

(** Effects that can be observed from outside the module. *)
Inductive event : Type :=
| Store (name : string) (v : value)
| Call (receiver : loc) (meth : string) (args : list value).

Record state : Type := State {
  globals : gmap string value;
  heap : gmap loc object;
  trace : list event
}.

(** ** The interpreter monad *)

Definition M (A : Type) : Type := state → (exn + A) * state.

Definition ret {A} (a : A) : M A := fun s => (inr a, s).

Definition raise {A} (e : exn) : M A := fun s => (inl e, s).

Definition bind {A B} (m : M A) (k : A → M B) : M B :=
  fun s =>
    match m s with
    | (inl e, s') => (inl e, s')
    | (inr a, s') => k a s'
    end.

(** [name = v] at module level. *)
Definition store_name (name : string) (v : value) : M unit :=
  fun s => (inr tt, State (<[name := v]> (globals s)) (heap s)
                          (trace s ++ [Store name v])).

(** [obj.meth(args)].  The attribute is looked up first: the values of the
    module itself (None, numbers, strings, containers, functions) have no
    attribute of the name the hook uses, and a reference must lead to a
    live object that has the attribute, else [AttributeError].  Then the
    call is made: an attribute that is not callable, or whose signature
    does not bind the arguments, gives [TypeError] before any foreign code
    runs.  Otherwise the call is recorded, the body runs on the attributes
    of its receiver, which is updated in place, and what the body raises is
    passed on. *)
Definition call_method (obj : value) (meth : string) (args : list value)
  : M value :=
  fun s =>
    match obj with
    | VRef l =>
        match heap s !! l with
        | Some o =>
            match methods o !! meth with
            | Some f =>
                if accepts f (length args) then
                  let '(r, a') := body f args (attrs o) in
                  let s' := State (globals s)
                                  (<[l := Object a' (methods o)]> (heap s))
                                  (trace s ++ [Call l meth args]) in
                  match r with
                  | inl msg => (inl (Foreign msg), s')
                  | inr v => (inr v, s')
                  end
                else raise (TypeError meth) s
            | None =>
                match attrs o !! meth with
                | Some _ => raise (TypeError meth) s
                | None => raise (AttributeError meth) s
                end
            end
        | None => raise (AttributeError meth) s
        end
    | _ => raise (AttributeError meth) s
    end.

End Py.

Export Py.

#[global] Instance M_ret : MRet M := @ret.
#[global] Instance M_bind : MBind M := λ A B k m, bind m k.

Notation "name ::= v" := (store_name name v) (at level 60).

(** ** The module body, statement by statement *)

(** The [setup] hook (its body is the single expression statement). *)
Definition setup (app : value) : M value :=
  call_method app "add_css_file" [VStr "custom.css"];;
  mret VNone.

Definition conf_py : M unit :=
  (* Project information *)
  "project" ::= VStr "Lankir";;
  "copyright" ::= VStr "2025, Lankir Contributors";;
  "author" ::= VStr "Lankir Contributors";;
  "version" ::= VStr "0.1";;
  "release" ::= VStr "0.1.1";;
  (* General configuration *)
  "extensions" ::= VList [
    VStr "sphinx.ext.autodoc";
    VStr "sphinx.ext.viewcode";
    VStr "sphinx.ext.napoleon";
    VStr "sphinx.ext.intersphinx";
    VStr "sphinx_copybutton";
    VStr "sphinx_design";
    VStr "myst_parser"
  ];;
  "templates_path" ::= VList [VStr "_templates"];;
  "exclude_patterns" ::=
    VList [VStr "_build"; VStr "Thumbs.db"; VStr ".DS_Store"; VStr "README.md"];;
  (* Options for HTML output *)
  "html_theme" ::= VStr "sphinx_rtd_theme";;
  "html_static_path" ::= VList [VStr "_static"];;
  "html_logo" ::= VStr "_static/logo.png";;
  "html_favicon" ::= VStr "_static/favicon.ico";;
  "html_title" ::= VStr "Lankir Documentation";;
  "html_theme_options" ::= VDict (
    <["logo_only" := VBool false]> $
    <["display_version" := VBool true]> $
    <["prev_next_buttons_location" := VStr "bottom"]> $
    <["style_external_links" := VBool true]> $
    <["collapse_navigation" := VBool false]> $
    <["sticky_navigation" := VBool true]> $
    <["navigation_depth" := VInt 4]> $
    <["includehidden" := VBool true]> $
    <["titles_only" := VBool false]> ∅);;
  "html_context" ::= VDict (
    <["display_github" := VBool true]> $
    <["github_user" := VStr "Matbe34"]> $
    <["github_repo" := VStr "lankir"]> $
    <["github_version" := VStr "main"]> $
    <["conf_py_path" := VStr "/docs/"]> ∅);;
  (* MyST Parser configuration *)
  "myst_enable_extensions" ::= VList [
    VStr "colon_fence";
    VStr "deflist";
    VStr "tasklist";
    VStr "fieldlist";
    VStr "attrs_inline";
    VStr "attrs_block"
  ];;
  "myst_heading_anchors" ::= VInt 3;;
  (* Intersphinx configuration *)
  "intersphinx_mapping" ::= VDict (
    <["python" := VTuple [VStr "https://docs.python.org/3"; VNone]]> ∅);;
  (* Source file configuration *)
  "source_suffix" ::= VDict (
    <[".rst" := VStr "restructuredtext"]> $
    <[".md" := VStr "markdown"]> ∅);;
  (* Pygments syntax highlighting *)
  "pygments_style" ::= VStr "monokai";;
  "pygments_dark_style" ::= VStr "monokai";;
  (* Copy button configuration *)
  "copybutton_prompt_text" ::= VStr ">>> |\.\.\. |\$ |> ";;
  "copybutton_prompt_is_regexp" ::= VBool true;;
  (* Custom CSS *)
  "setup" ::= VFunc "setup".

(** ** Loading the module *)

(** [exec(code, namespace)], by which the documentation tool loads the file:
    the interpreter binds [__builtins__] in a namespace that lacks it, then
    runs the module body. *)
Definition exec (builtins : value) (code : M unit) : M unit :=
  fun s =>
    code (State (match globals s !! "__builtins__" with
                 | Some _ => globals s
                 | None => <["__builtins__" := builtins]> (globals s)
                 end)
                (heap s) (trace s)).

(** A namespace, heap and trace with nothing in them. *)
Definition fresh : state := State ∅ ∅ [].

(** What a load into [fresh] leaves behind. *)
Definition load_trace : list event := trace (conf_py fresh).2.
Definition load_globals : gmap string value := globals (conf_py fresh).2.

Definition apply_event (g : gmap string value) (ev : event)
  : gmap string value :=
  match ev with
  | Store name v => <[name := v]> g
  | Call _ _ _ => g
  end.

(** The namespace obtained from [g] by performing the stores of a trace. *)
Definition replay (t : list event) (g : gmap string value)
  : gmap string value :=
  foldl apply_event g t.

Fixpoint stored_names (t : list event) : list string :=
  match t with
  | [] => []
  | Store name _ :: t' => name :: stored_names t'
  | Call _ _ _ :: t' => stored_names t'
  end.

(** The names the module binds, in source order. *)
Definition config_fields : list string := stored_names load_trace.

(** ** Reading the loaded configuration *)

(** The value bound to [x] once the module has been loaded in state [s]. *)
Definition config_value (s : state) (x : string) : option value :=
  globals (conf_py s).2 !! x.

(** [obj] refers to a live object whose method table has an entry [meth]. *)
Definition has_method (s : state) (obj : value) (meth : string) : bool :=
  match obj with
  | VRef l =>
      match heap s !! l with
      | Some o =>
          match methods o !! meth with
          | Some _ => true
          | None => false
          end
      | None => false
      end
  | _ => false
  end.

(** [hasattr(obj, meth)]: the attribute lookup [obj.meth] succeeds, on a
    callable attribute or on any other. *)
Definition hasattr (s : state) (obj : value) (meth : string) : bool :=
  match obj with
  | VRef l =>
      match heap s !! l with
      | Some o =>
          match methods o !! meth, attrs o !! meth with
          | None, None => false
          | _, _ => true
          end
      | None => false
      end
  | _ => false
  end.

(** [obj.meth] is a method whose signature binds [n] positional arguments. *)
Definition accepts_call (s : state) (obj : value) (meth : string) (n : nat)
  : bool :=
  match obj with
  | VRef l =>
      match heap s !! l with
      | Some o =>
          match methods o !! meth with
          | Some f => accepts f n
          | None => false
          end
      | None => false
      end
  | _ => false
  end.

(** The exception of a call [obj.meth(...)] that cannot be made. *)
Definition call_error (s : state) (obj : value) (meth : string) : exn :=
  if hasattr s obj meth then TypeError meth else AttributeError meth.

(** The state after the tool has invoked the hook [n] times in a row,
    whatever each invocation returned. *)
Fixpoint invoke_times (n : nat) (app : value) (s : state) : state :=
  match n with
  | O => s
  | S n' => invoke_times n' app (setup app s).2
  end.

Definition css_call (l : loc) : event :=
  Call l "add_css_file" [VStr "custom.css"].

(** ** A stand-in for the build application

    Used to exercise the hook on a concrete receiver: an object whose
    [add_css_file] appends the file name to its [css_files] attribute. *)

Definition add_css_file : method :=
  Method (λ n, Nat.eqb n 1) (λ args a,
    match args, a !! "css_files" with
    | [VStr filename], Some (VList files) =>
        (inr VNone, <["css_files" := VList (files ++ [VStr filename])]> a)
    | _, _ => (inl "TypeError", a)
    end).

Definition recording_app : object :=
  Object {[ "css_files" := VList [] ]} {[ "add_css_file" := add_css_file ]}.

Definition app_loc : loc := 1%positive.

Definition build_state : state := State ∅ {[ app_loc := recording_app ]} [].

(** Two objects on which the call of the hook cannot be made: one whose
    [add_css_file] is a data attribute, one whose [add_css_file] takes no
    argument. *)
Definition data_attribute_app : object :=
  Object {[ "add_css_file" := VNone ]} ∅.


Definition data_attribute_state : state :=
  State ∅ {[ app_loc := data_attribute_app ]} [].


(** [s.startswith(p)] *)
Fixpoint startswith (s p : string) {struct p} : bool :=
  match p with
  | "" => true
  | String c p' =>
      match s with
      | "" => false
      | String d s' => Ascii.eqb c d && startswith s' p'
      end
  end.

(** ** The prompt pattern

    The fragment of Python's regular-expression syntax in which the
    copy-button prompt is written: literal characters, a backslash in front
    of a punctuation character to take it literally, and alternation at the
    top level.  Any other use of a metacharacter is outside the fragment. *)

Module Re.

Definition is_alnum (c : ascii) : bool :=
  let n := nat_of_ascii c in
  (((48 <=? n) && (n <=? 57)) || ((65 <=? n) && (n <=? 90))
   || ((97 <=? n) && (n <=? 122)))%nat.

Definition is_meta (c : ascii) : bool :=
  bool_decide (c ∈ String.list_ascii_of_string ".^$*+?{}[]()").

Definition push (c : ascii) (alts : list string) : list string :=
  match alts with
  | [] => [String c ""]
  | a :: alts' => String c a :: alts'
  end.

(** The alternatives of a pattern, each one as the text it stands for. *)
Fixpoint parse (p : string) : option (list string) :=
  match p with
  | "" => Some [""]
  | String c p' =>
      if Ascii.eqb c "|"%char then cons "" <$> parse p'
      else if Ascii.eqb c "\"%char then
        match p' with
        | String e p'' =>
            if is_alnum e then None else push e <$> parse p''
        | "" => None
        end
      else if is_meta c then None
      else push c <$> parse p'
  end.

(** [re.match(p, s)]: the text matched at the start of [s], which is the
    first alternative that [s] starts with. *)
Definition re_match (p s : string) : option string :=
  alts ← parse p; List.find (startswith s) alts.

End Re.

(** The rows of the option table of the specification (section 6). *)
Definition spec_interface_options : list string :=
  [ "project"; "author"; "version"; "release";
    "extensions";
    "templates_path"; "exclude_patterns";
    "html_theme"; "html_theme_options"; "html_static_path"; "html_logo";
    "html_favicon"; "html_title";
    "html_context";
    "myst_enable_extensions"; "myst_heading_anchors";
    "intersphinx_mapping";
    "source_suffix";
    "pygments_style"; "pygments_dark_style";
    "setup" ].

(** ** List-valued fields *)

Definition is_list_valued (s : state) (x : string) : bool :=
  match config_value s x with
  | Some (VList _) => true
  | _ => false
  end.

(** The texts of a list of string values; [None] if some item is not one. *)
Fixpoint str_items (items : list value) : option (list string) :=
  match items with
  | [] => Some []
  | VStr s :: items' => cons s <$> str_items items'
  | _ :: _ => None
  end.


(** The prompts the copy button strips, as the pattern lists them. *)
Definition prompts : list string := [">>> "; "... "; "$ "; "> "].

(** * Basic facts *)

Ltac run_conf :=
  cbv [conf_py load_trace load_globals fresh mbind M_bind bind store_name
       snd fst globals heap trace].

Lemma conf_py_run (s : state) :
  conf_py s =
  (inr (), State (replay load_trace (globals s)) (heap s) (trace s ++ load_trace)).
Proof.
  run_conf. cbv [replay foldl apply_event].
  do 2 f_equal. rewrite <- !app_assoc. reflexivity.
Qed.

Lemma exec_conf_py_run (b : value) (s : state) :
  exec b conf_py s =
  (inr (),
   State (replay load_trace
            (match globals s !! "__builtins__" with
             | Some _ => globals s
             | None => <["__builtins__" := b]> (globals s)
             end))
         (heap s) (trace s ++ load_trace)).
Proof. unfold exec. by rewrite conf_py_run. Qed.

(** ** Replaying a trace on a namespace *)

Section Replay.

Implicit Types (t : list event) (g : gmap string value) (x : string).

Lemma replay_cons ev t g : replay (ev :: t) g = replay t (apply_event g ev).
Proof. reflexivity. Qed.

Lemma replay_lookup_fresh t g x :
  x ∉ stored_names t → replay t g !! x = g !! x.
Proof.
  revert g. induction t as [|[name v|l m args] t IH]; intros g Hx.
  - reflexivity.
  - rewrite replay_cons, IH by (simpl in Hx; set_solver).
    simpl. apply lookup_insert_ne. simpl in Hx. set_solver.
  - rewrite replay_cons. apply IH, Hx.
Qed.

Lemma replay_lookup_stored t g1 g2 x :
  x ∈ stored_names t → replay t g1 !! x = replay t g2 !! x.
Proof.
  revert g1 g2. induction t as [|[name v|l m args] t IH]; intros g1 g2 Hx.
  - simpl in Hx. set_solver.
  - rewrite !replay_cons.
    destruct (decide (x ∈ stored_names t)) as [Hin|Hout]; [by apply IH|].
    rewrite !replay_lookup_fresh by done.
    simpl in Hx. apply elem_of_cons in Hx as [->|Hx]; [|done].
    simpl. by rewrite !lookup_insert_eq.
  - rewrite !replay_cons. by apply IH.
Qed.

Lemma replay_stored_is_Some t g x :
  x ∈ stored_names t → is_Some (replay t g !! x).
Proof.
  revert g. induction t as [|[name v|l m args] t IH]; intros g Hx.
  - simpl in Hx. set_solver.
  - rewrite replay_cons.
    destruct (decide (x ∈ stored_names t)) as [Hin|Hout]; [by apply IH|].
    rewrite replay_lookup_fresh by done.
    simpl in Hx. apply elem_of_cons in Hx as [->|Hx]; [|done].
    simpl. rewrite lookup_insert_eq. by eexists.
  - rewrite replay_cons. by apply IH.
Qed.

Lemma replay_idem t g : replay t (replay t g) = replay t g.
Proof.
  apply map_eq. intros x.
  destruct (decide (x ∈ stored_names t)) as [Hin|Hout].
  - by apply replay_lookup_stored.
  - by rewrite replay_lookup_fresh.
Qed.

End Replay.

Lemma load_globals_replay : load_globals = replay load_trace ∅.
Proof. unfold load_globals. rewrite conf_py_run. reflexivity. Qed.

Lemma conf_py_field (s : state) (x : string) :
  x ∈ config_fields → globals (conf_py s).2 !! x = load_globals !! x.
Proof.
  intros Hx. rewrite conf_py_run, load_globals_replay. cbn [snd globals].
  apply replay_lookup_stored, Hx.
Qed.


(** ** The setup hook *)

Section Setup.

Implicit Types (s : state) (app : value) (l : loc) (o : object) (f : method).

Lemma has_method_inv s app meth :
  has_method s app meth = true →
  ∃ l o f, app = VRef l ∧ heap s !! l = Some o ∧ methods o !! meth = Some f.
Proof.
  unfold has_method. intros H.
  destruct app as [| | | | | | | |l]; try discriminate.
  destruct (heap s !! l) as [o|] eqn:Ho; [|discriminate].
  destruct (methods o !! meth) as [f|] eqn:Hf; [|discriminate].
  by exists l, o, f.
Qed.

Lemma accepts_call_inv s app meth n :
  accepts_call s app meth n = true →
  ∃ l o f, app = VRef l ∧ heap s !! l = Some o ∧
           methods o !! meth = Some f ∧ accepts f n = true.
Proof.
  unfold accepts_call. intros H.
  destruct app as [| | | | | | | |l]; try discriminate.
  destruct (heap s !! l) as [o|] eqn:Ho; [|discriminate].
  destruct (methods o !! meth) as [f|] eqn:Hf; [|discriminate].
  by exists l, o, f.
Qed.

Lemma accepts_call_intro s l o f meth n :
  heap s !! l = Some o → methods o !! meth = Some f →
  accepts_call s (VRef l) meth n = accepts f n.
Proof. intros Ho Hf. unfold accepts_call. by rewrite Ho, Hf. Qed.

Lemma setup_run s l o f :
  heap s !! l = Some o →
  methods o !! "add_css_file" = Some f →
  accepts f 1 = true →
  setup (VRef l) s =
    (match (body f [VStr "custom.css"] (attrs o)).1 with
     | inl msg => inl (Foreign msg)
     | inr _ => inr VNone
     end,
     State (globals s)
           (<[l := Object (body f [VStr "custom.css"] (attrs o)).2 (methods o)]>
              (heap s))
           (trace s ++ [css_call l])).
Proof.
  intros Ho Hf Hacc.
  cbv [setup call_method mbind M_bind bind mret M_ret ret length].
  rewrite Ho. cbv beta iota. rewrite Hf. cbv beta iota. rewrite Hacc.
  destruct (body f [VStr "custom.css"] (attrs o)) as [[msg|v] a']; reflexivity.
Qed.

(** When the call cannot be made it fails before anything is done. *)
Lemma setup_raises s app :
  accepts_call s app "add_css_file" 1 = false →
  setup app s = (inl (call_error s app "add_css_file"), s).
Proof.
  unfold accepts_call, call_error, hasattr. intros H.
  cbv [setup call_method mbind M_bind bind raise length].
  destruct app as [| | | | | | | |l]; try reflexivity.
  destruct (heap s !! l) as [o|]; [|reflexivity].
  destruct (methods o !! "add_css_file") as [f|].
  - by rewrite H.
  - by destruct (attrs o !! "add_css_file").
Qed.

Lemma setup_globals s app : globals (setup app s).2 = globals s.
Proof.
  destruct (accepts_call s app "add_css_file" 1) eqn:H.
  - apply accepts_call_inv in H as (l & o & f & -> & Ho & Hf & Hacc).
    by rewrite (setup_run _ _ _ _ Ho Hf Hacc).
  - by rewrite setup_raises.
Qed.

Lemma setup_stored_names s app :
  stored_names (trace (setup app s).2) = stored_names (trace s).
Proof.
  destruct (accepts_call s app "add_css_file" 1) eqn:H.
  - apply accepts_call_inv in H as (l & o & f & -> & Ho & Hf & Hacc).
    rewrite (setup_run _ _ _ _ Ho Hf Hacc). cbn [snd trace].
    induction (trace s) as [|[name v|l' m args] t IH]; simpl; congruence.
  - by rewrite setup_raises.
Qed.

Lemma setup_keeps_signature s app meth n :
  accepts_call (setup app s).2 app meth n = accepts_call s app meth n.
Proof.
  destruct (accepts_call s app "add_css_file" 1) eqn:Hcss.
  - apply accepts_call_inv in Hcss as (l & o & f & -> & Ho & Hf & Hacc).
    rewrite (setup_run _ _ _ _ Ho Hf Hacc). unfold accepts_call.
    cbn [snd heap]. rewrite lookup_insert_eq. cbn [methods].
    by rewrite Ho.
  - by rewrite setup_raises.
Qed.

Lemma invoke_times_trace n s l :
  accepts_call s (VRef l) "add_css_file" 1 = true →
  trace (invoke_times n (VRef l) s) = trace s ++ replicate n (css_call l).
Proof.
  revert s. induction n as [|n IH]; intros s H.
  - simpl. by rewrite app_nil_r.
  - cbn [invoke_times]. rewrite IH by by rewrite setup_keeps_signature.
    destruct (accepts_call_inv _ _ _ _ H) as (l' & o & f & [= <-] & Ho & Hf & Hacc).
    rewrite (setup_run _ _ _ _ Ho Hf Hacc). cbn [snd trace replicate].
    by rewrite <- app_assoc.
Qed.

Lemma invoke_times_raises n s app :
  accepts_call s app "add_css_file" 1 = false →
  invoke_times n app s = s.
Proof.
  intros H. induction n as [|n IH]; [done|].
  cbn [invoke_times]. by rewrite (setup_raises _ _ H).
Qed.

End Setup.

(** ** Small runs *)

Example config_fields_listing :
  config_fields =
    ["project"; "copyright"; "author"; "version"; "release"; "extensions";
     "templates_path"; "exclude_patterns"; "html_theme"; "html_static_path";
     "html_logo"; "html_favicon"; "html_title"; "html_theme_options";
     "html_context"; "myst_enable_extensions"; "myst_heading_anchors";
     "intersphinx_mapping"; "source_suffix"; "pygments_style";
     "pygments_dark_style"; "copybutton_prompt_text";
     "copybutton_prompt_is_regexp"; "setup"].
Proof. reflexivity. Qed.

Example load_keeps_other_names :
  globals (conf_py (State {[ "tags" := VNone ]} ∅ [])).2 !! "tags" = Some VNone.
Proof.
  rewrite conf_py_run. cbn [snd globals].
  rewrite replay_lookup_fresh; [apply lookup_singleton_eq|].
  apply (bool_decide_unpack _). by vm_compute.
Qed.

Example load_into_empty_namespace (b : value) :
  size (globals (exec b conf_py fresh).2) = 25.
Proof. by vm_compute. Qed.

Example load_as_the_tool_does (b file tags : value) :
  size (globals (exec b conf_py
                   (State (<["__file__" := file]> {[ "tags" := tags ]}) ∅ [])).2)
  = 27.
Proof. by vm_compute. Qed.

Example setup_on_None :
  setup VNone fresh = (inl (AttributeError "add_css_file"), fresh).
Proof. reflexivity. Qed.

Example setup_twice_on_recording_app :
  (o ← heap (invoke_times 2 (VRef app_loc) build_state) !! app_loc;
   attrs o !! "css_files")
  = Some (VList [VStr "custom.css"; VStr "custom.css"]).
Proof. by vm_compute. Qed.

Example parse_alternation : Re.parse "a|bc" = Some ["a"; "bc"].
Proof. reflexivity. Qed.

Example parse_escaped_bar : Re.parse "a\|b" = Some ["a|b"].
Proof. reflexivity. Qed.

Example parse_wildcard_outside_fragment : Re.parse "a.b" = None.
Proof. reflexivity. Qed.

Example parse_class_outside_fragment : Re.parse "\d" = None.
Proof. reflexivity. Qed.

Example no_prompt_no_match :
  Re.re_match ">>> |\.\.\. |\$ |> " "print(1)" = None.
Proof. reflexivity. Qed.

Example dots_need_the_space :
  Re.re_match ">>> |\.\.\. |\$ |> " "...x" = None.
Proof. reflexivity. Qed.

(** * Properties of the hook and of loading *)

(** C1: on an application object whose method table has [add_css_file],
    taking one argument as the build application's does, one call of
    [setup] performs exactly one call [add_css_file('custom.css')] on that
    object and nothing else: the namespace is untouched, the heap changes
    only at the receiver and only by what the method itself does, and the
    hook returns [None] unless the method raised.  The call is the same in
    every state, so [n] invocations leave [n] copies of it in the trace.
    A method that does not take one argument is never entered: the call
    expression raises [TypeError] and nothing changes. *)
Theorem setup_registers_custom_css (s : state) (app : value) :
  has_method s app "add_css_file" = true →
  ∃ l o f,
    app = VRef l ∧ heap s !! l = Some o ∧
    methods o !! "add_css_file" = Some f ∧
    if accepts f 1 then
      setup app s =
        (match (body f [VStr "custom.css"] (attrs o)).1 with
         | inl msg => inl (Foreign msg)
         | inr _ => inr VNone
         end,
         State (globals s)
               (<[l := Object (body f [VStr "custom.css"] (attrs o)).2
                              (methods o)]> (heap s))
               (trace s ++ [Call l "add_css_file" [VStr "custom.css"]])) ∧
      ∀ n, trace (invoke_times n app s) =
           trace s ++ replicate n (Call l "add_css_file" [VStr "custom.css"])
    else
      setup app s = (inl (TypeError "add_css_file"), s) ∧
      ∀ n, invoke_times n app s = s.
Proof.
  intros H. destruct (has_method_inv _ _ _ H) as (l & o & f & -> & Ho & Hf).
  exists l, o, f. do 3 (split; [done|]).
  pose proof (accepts_call_intro s l o f "add_css_file" 1 Ho Hf) as Hcall.
  destruct (accepts f 1) eqn:Hacc.
  - split; [by apply setup_run|].
    intros n. by apply invoke_times_trace.
  - split.
    + rewrite (setup_raises _ _ Hcall). unfold call_error, hasattr.
      by rewrite Ho, Hf.
    + intros n. by apply invoke_times_raises.
Qed.

Lemma setup_registers_custom_css_witness :
  has_method build_state (VRef app_loc) "add_css_file" = true ∧
  (setup (VRef app_loc) build_state).1 = inr VNone ∧
  trace (setup (VRef app_loc) build_state).2 =
    [Call app_loc "add_css_file" [VStr "custom.css"]] ∧
  (o ← heap (setup (VRef app_loc) build_state).2 !! app_loc;
   attrs o !! "css_files") = Some (VList [VStr "custom.css"]).
Proof.
  split; [reflexivity|].
  destruct (setup_registers_custom_css build_state (VRef app_loc) eq_refl)
    as (l & o & f & Hl & Ho & Hf & Hrun).
  injection Hl as <-.
  unfold build_state in Ho. cbn [heap] in Ho.
  rewrite lookup_singleton_eq in Ho. injection Ho as <-.
  cbn [methods recording_app] in Hf.
  rewrite lookup_singleton_eq in Hf. injection Hf as <-.
  cbn [accepts add_css_file Nat.eqb] in Hrun. destruct Hrun as [Hrun _].
  rewrite Hrun. cbn [fst snd trace heap]. repeat split.
Defined.




(** ** Loading, and loading again *)

Lemma config_value_load (s : state) (x : string) :
  x ∈ config_fields → config_value s x = load_globals !! x.
Proof. apply conf_py_field. Qed.

Lemma config_value_is_Some (s : state) (x : string) :
  x ∈ config_fields → is_Some (config_value s x).
Proof.
  intros Hx. unfold config_value. rewrite conf_py_run. cbn [snd globals].
  by apply replay_stored_is_Some.
Qed.

Lemma config_fields_NoDup : NoDup config_fields.
Proof. apply (bool_decide_unpack _). by vm_compute. Qed.

(** C2: a load succeeds from every state, the value it gives to each name
    the module binds does not depend on the state it started from, and a
    second load into the namespace left by the first one changes nothing.
    Nothing but the namespace and the trace is written. *)
Theorem load_twice_identical (s1 s2 : state) :
  (conf_py s1).1 = inr () ∧
  Forall (λ x, is_Some (config_value s1 x) ∧
               config_value s1 x = config_value s2 x) config_fields ∧
  globals (conf_py (conf_py s1).2).2 = globals (conf_py s1).2 ∧
  globals (conf_py fresh).2 = globals (conf_py (conf_py fresh).2).2 ∧
  heap (conf_py s1).2 = heap s1.
Proof.
  split; [by rewrite conf_py_run|]. split; [|split; [|split]].
  - apply Forall_forall. intros x Hx. split.
    + by apply config_value_is_Some.
    + by rewrite !config_value_load.
  - rewrite !conf_py_run. cbn [snd globals]. apply replay_idem.
  - rewrite !conf_py_run. cbn [snd globals]. symmetry. apply replay_idem.
  - by rewrite conf_py_run.
Qed.

(** C3: during a load every name of the module is stored exactly once, and
    [setup] performs no store at all: whatever the argument, and whether it
    returns or raises, it leaves the whole namespace, hence every
    configuration value, as it found it. *)
Theorem fields_assigned_once_never_mutated (s : state) (app : value) :
  stored_names (trace (conf_py fresh).2) = config_fields ∧
  NoDup config_fields ∧
  stored_names (trace (conf_py s).2) = stored_names (trace s) ++ config_fields ∧
  globals (setup app s).2 = globals s ∧
  stored_names (trace (setup app s).2) = stored_names (trace s) ∧
  Forall (λ x, globals (setup app (conf_py s).2).2 !! x = config_value s x)
         config_fields.
Proof.
  split; [reflexivity|]. split; [apply config_fields_NoDup|].
  split; [|split; [apply setup_globals|split; [apply setup_stored_names|]]].
  - rewrite conf_py_run. cbn [snd trace]. unfold config_fields.
    generalize load_trace as t'.
    induction (trace s) as [|[name v|l m args] t IH]; intros t'; simpl;
      [reflexivity|f_equal; apply IH|apply IH].
  - apply Forall_forall. intros x _. by rewrite setup_globals.
Qed.

(** * The configuration values *)

(** A name bound by the module has, from every initial state, the value a
    load into the empty namespace gives it; that one is computed. *)
Ltac is_field := apply (bool_decide_unpack _); by vm_compute.

Lemma lookup_field (s : state) (x : string) (v : value) :
  x ∈ config_fields → load_globals !! x = Some v → config_value s x = Some v.
Proof. intros Hx Hv. by rewrite config_value_load. Qed.

Ltac field_value := apply lookup_field; [is_field | by vm_compute].

(** C5: [extensions] is the list of these seven plugin names, in the order
    in which the file writes them. *)
Theorem extensions_value (s : state) :
  config_value s "extensions" = Some (VList [
    VStr "sphinx.ext.autodoc";
    VStr "sphinx.ext.viewcode";
    VStr "sphinx.ext.napoleon";
    VStr "sphinx.ext.intersphinx";
    VStr "sphinx_copybutton";
    VStr "sphinx_design";
    VStr "myst_parser"]).
Proof. field_value. Qed.

(** C6: [source_suffix] is a dictionary with the two keys '.rst' and '.md',
    bound to 'restructuredtext' and 'markdown', and no other key. *)
Theorem source_suffix_value (s : state) :
  ∃ d : gmap string value,
    config_value s "source_suffix" = Some (VDict d) ∧
    d !! ".rst" = Some (VStr "restructuredtext") ∧
    d !! ".md" = Some (VStr "markdown") ∧
    dom d = {[ ".rst"; ".md" ]} ∧
    size d = 2.
Proof.
  eexists. split; [field_value|].
  repeat split; by vm_compute.
Qed.

(** C7: [intersphinx_mapping] is a dictionary with the single key 'python',
    bound to the pair of the documentation URL and [None]. *)
Theorem intersphinx_mapping_value (s : state) :
  ∃ d : gmap string value,
    config_value s "intersphinx_mapping" = Some (VDict d) ∧
    d = {[ "python" := VTuple [VStr "https://docs.python.org/3"; VNone] ]} ∧
    dom d = {[ "python" ]} ∧
    size d = 1.
Proof.
  eexists. split; [field_value|].
  repeat split; by vm_compute.
Qed.

(** C8: the version '0.1' is a proper prefix of the release '0.1.1', which
    is the version followed by a dot and the patch number '1'. *)
Theorem version_prefix_of_release (s : state) :
  ∃ v r : string,
    config_value s "version" = Some (VStr v) ∧
    config_value s "release" = Some (VStr r) ∧
    v = "0.1" ∧ r = "0.1.1" ∧
    startswith r v = true ∧
    String.length v < String.length r ∧
    r = v +:+ "." +:+ "1".
Proof.
  exists "0.1", "0.1.1".
  split; [field_value|]. split; [field_value|].
  repeat split. simpl. lia.
Qed.

(** C9: the module binds [copybutton_prompt_is_regexp] to [True] and
    [copybutton_prompt_text] to a pattern whose alternatives are the four
    prompts '>>> ', '... ', '$ ' and '> '; a line that starts with one of
    them is matched on exactly that prompt.  Both names are bound by the
    module and are not rows of the option table of the specification. *)
Theorem copybutton_prompt_value (s : state) :
  ∃ pat : string,
    config_value s "copybutton_prompt_is_regexp" = Some (VBool true) ∧
    config_value s "copybutton_prompt_text" = Some (VStr pat) ∧
    pat = ">>> |\.\.\. |\$ |> " ∧
    Re.parse pat = Some [">>> "; "... "; "$ "; "> "] ∧
    (∀ rest, Re.re_match pat (">>> " +:+ rest) = Some ">>> ") ∧
    (∀ rest, Re.re_match pat ("... " +:+ rest) = Some "... ") ∧
    (∀ rest, Re.re_match pat ("$ " +:+ rest) = Some "$ ") ∧
    (∀ rest, Re.re_match pat ("> " +:+ rest) = Some "> ") ∧
    Forall (λ x, x ∈ config_fields ∧ x ∉ spec_interface_options)
           ["copybutton_prompt_text"; "copybutton_prompt_is_regexp"].
Proof.
  eexists. split; [field_value|]. split; [field_value|].
  split; [reflexivity|]. split; [by vm_compute|].
  do 4 (split; [intros rest; by vm_compute|]).
  rewrite !Forall_cons, Forall_nil. repeat split; is_field.
Qed.

(** ** Lists of strings and prefixes *)

Lemma str_items_fmap (items : list value) (ss : list string) :
  str_items items = Some ss → items = VStr <$> ss.
Proof.
  revert ss. induction items as [|v items IH]; intros ss.
  - by intros [= <-].
  - destruct v; try discriminate. simpl.
    destruct (str_items items) as [ss'|]; [|discriminate].
    intros [= <-]. simpl. f_equal. by apply IH.
Qed.

Lemma str_items_NoDup (items : list value) (ss : list string) :
  str_items items = Some ss → NoDup ss → NoDup items.
Proof.
  intros ->%str_items_fmap Hss. apply NoDup_fmap_2; [|done].
  by intros ?? [= ->].
Qed.

Lemma startswith_spec (s p : string) :
  startswith s p = true ↔ ∃ rest, s = p +:+ rest.
Proof.
  revert s. induction p as [|c p IH]; intros s.
  - split; [by exists s|done].
  - destruct s as [|d s]; simpl.
    + split; [done|by intros [? ?]].
    + rewrite andb_true_iff, IH. split.
      * intros [->%Ascii.eqb_eq [rest ->]]. by exists rest.
      * intros [rest [= -> ->]]. split; [apply Ascii.eqb_refl|by exists rest].
Qed.

(** C10: the list-valued names of the module are exactly
    [extensions], [templates_path], [exclude_patterns], [html_static_path]
    and [myst_enable_extensions]; each of these lists holds strings only,
    without repetition.  'myst_parser' is one of the extensions, and
    [source_suffix] sends '.md' to 'markdown'. *)
Theorem list_fields_strings_no_duplicates (s : state) :
  List.filter (is_list_valued s) config_fields =
    ["extensions"; "templates_path"; "exclude_patterns"; "html_static_path";
     "myst_enable_extensions"] ∧
  Forall (λ x, ∃ items ss,
            config_value s x = Some (VList items) ∧
            str_items items = Some ss ∧ NoDup ss ∧ NoDup items)
    ["extensions"; "templates_path"; "exclude_patterns"; "html_static_path";
     "myst_enable_extensions"] ∧
  (∃ exts, config_value s "extensions" = Some (VList exts) ∧
           VStr "myst_parser" ∈ exts) ∧
  (∃ d : gmap string value,
     config_value s "source_suffix" = Some (VDict d) ∧
     d !! ".md" = Some (VStr "markdown")).
Proof.
  split; [|split; [|split]].
  - erewrite List.filter_ext_in.
    + instantiate (1 := λ x, match load_globals !! x with
                             | Some (VList _) => true
                             | _ => false
                             end).
      by vm_compute.
    + intros x Hx%list_elem_of_In. unfold is_list_valued.
      by rewrite config_value_load.
  - assert (Hfield : ∀ x items ss,
              x ∈ config_fields → load_globals !! x = Some (VList items) →
              str_items items = Some ss → NoDup ss →
              ∃ items ss, config_value s x = Some (VList items) ∧
                str_items items = Some ss ∧ NoDup ss ∧ NoDup items).
    { intros x items ss Hx Hv Hss Hnd. exists items, ss.
      split; [by apply lookup_field|]. split; [done|]. split; [done|].
      by apply (str_items_NoDup _ ss). }
    rewrite !Forall_cons, Forall_nil.
    repeat split; eapply Hfield;
      first [is_field | by vm_compute | apply (bool_decide_unpack _); by vm_compute].
  - eexists. split; [field_value|]. set_solver.
  - eexists. split; [field_value|]. by vm_compute.
Qed.

(** * Further properties of loading and of the hook *)



Lemma hasattr_heap (s1 s2 : state) (obj : value) (meth : string) :
  heap s1 = heap s2 → hasattr s1 obj meth = hasattr s2 obj meth.
Proof. unfold hasattr. by intros ->. Qed.

Lemma accepts_call_heap (s1 s2 : state) (obj : value) (meth : string) (n : nat) :
  heap s1 = heap s2 → accepts_call s1 obj meth n = accepts_call s2 obj meth n.
Proof. unfold accepts_call. by intros ->. Qed.

(** X1: when the call of the hook cannot be made, [setup] raises from its
    own call expression and changes nothing, however often it is invoked.
    The exception is [AttributeError] when the argument has no attribute
    [add_css_file] (it is no object, or its object lacks the name), and
    [TypeError] when it has one that is not callable or does not take one
    argument. *)
Theorem setup_without_method_raises (s : state) (app : value) :
  accepts_call s app "add_css_file" 1 = false →
  (setup app s).1 =
    inl (if hasattr s app "add_css_file"
         then TypeError "add_css_file"
         else AttributeError "add_css_file") ∧
  (∀ e, (setup app s).1 = inl e → originates_here e = true) ∧
  (setup app s).2 = s ∧
  ∀ n, invoke_times n app s = s.
Proof.
  intros H. rewrite (setup_raises _ _ H). cbn [fst snd]. unfold call_error.
  split; [done|]. split; [|split; [done|]].
  - intros e [= <-]. by destruct (hasattr s app "add_css_file").
  - intros n. by apply invoke_times_raises.
Qed.

Lemma setup_without_method_raises_witness :
  accepts_call fresh VNone "add_css_file" 1 = false ∧
  (setup VNone fresh).1 = inl (AttributeError "add_css_file") ∧
  accepts_call data_attribute_state (VRef app_loc) "add_css_file" 1 = false ∧
  (setup (VRef app_loc) data_attribute_state).1
    = inl (TypeError "add_css_file") ∧
  invoke_times 3 (VRef app_loc) data_attribute_state = data_attribute_state.
Proof.
  split; [reflexivity|].
  destruct (setup_without_method_raises fresh VNone eq_refl)
    as (Hnone & _ & _ & _).
  split; [exact Hnone|]. split; [reflexivity|].
  destruct (setup_without_method_raises data_attribute_state (VRef app_loc)
              eq_refl) as (Hdata & _ & _ & Hn).
  split; [exact Hdata | exact (Hn 3)].
Defined.

(** X2: the namespace after the tool has loaded the file, name by name.  A
    name the module binds has the value the module gives it; [__builtins__]
    keeps the value it had, or gets the one the interpreter provides when it
    was unbound; every other name is as it was before the load, bound or
    unbound. *)
Theorem load_keeps_unbound_names (b : value) (s : state) (x : string) :
  globals (exec b conf_py s).2 !! x =
    if decide (x ∈ config_fields) then load_globals !! x
    else if decide (x = "__builtins__") then Some (default b (globals s !! x))
    else globals s !! x.
Proof.
  rewrite exec_conf_py_run. cbn [snd globals].
  destruct (decide (x ∈ config_fields)) as [Hin|Hout].
  - rewrite load_globals_replay. by apply replay_lookup_stored.
  - rewrite replay_lookup_fresh by done.
    destruct (decide (x = "__builtins__")) as [->|Hne].
    + destruct (globals s !! "__builtins__") as [v|] eqn:Hb; simpl.
      * done.
      * by rewrite lookup_insert_eq.
    + destruct (globals s !! "__builtins__"); [done|].
      by rewrite lookup_insert_ne.
Qed.


(** X5: the hook reads nothing but the heap: in two states with the same
    heap, whatever their namespaces and traces, it returns or raises the
    same and leaves the same heap.  In particular its outcome does not
    depend on whether the module was loaded before. *)
Theorem setup_reads_only_heap (s1 s2 : state) (app : value) :
  heap s1 = heap s2 →
  (setup app s1).1 = (setup app s2).1 ∧
  heap (setup app s1).2 = heap (setup app s2).2.
Proof.
  intros Hh. destruct (accepts_call s1 app "add_css_file" 1) eqn:H1.
  - assert (H2 : accepts_call s2 app "add_css_file" 1 = true)
      by by rewrite <- (accepts_call_heap s1 s2).
    destruct (accepts_call_inv _ _ _ _ H1) as (l & o & f & -> & Ho & Hf & Hacc).
    assert (Ho2 : heap s2 !! l = Some o) by by rewrite <- Hh.
    rewrite (setup_run _ _ _ _ Ho Hf Hacc), (setup_run _ _ _ _ Ho2 Hf Hacc).
    cbn [fst snd heap]. by rewrite Hh.
  - assert (H2 : accepts_call s2 app "add_css_file" 1 = false)
      by by rewrite <- (accepts_call_heap s1 s2).
    rewrite !setup_raises by done. cbn [fst snd]. unfold call_error.
    by rewrite (hasattr_heap s1 s2), Hh.
Qed.

Lemma setup_reads_only_heap_witness :
  heap build_state = heap (conf_py build_state).2 ∧
  (setup (VRef app_loc) build_state).1
    = (setup (VRef app_loc) (conf_py build_state).2).1 ∧
  heap (setup (VRef app_loc) build_state).2
    = heap (setup (VRef app_loc) (conf_py build_state).2).2.
Proof.
  assert (Hh : heap build_state = heap (conf_py build_state).2)
    by reflexivity.
  split; [exact Hh|].
  exact (setup_reads_only_heap build_state (conf_py build_state).2
           (VRef app_loc) Hh).
Defined.

(** X7: what the prompt pattern matches on an arbitrary line.  If the line
    is matched, the matched text is one of the four prompts, the line is
    that prompt followed by the rest of the line, and no other prompt is a
    prefix of the line; if it is not matched, the line starts with none of
    the four prompts. *)
Theorem prompt_match_characterised (s : state) (line : string) :
  ∃ pat : string,
    config_value s "copybutton_prompt_text" = Some (VStr pat) ∧
    match Re.re_match pat line with
    | Some m =>
        m ∈ prompts ∧ (∃ rest, line = m +:+ rest) ∧
        List.filter (startswith line) prompts = [m]
    | None => List.filter (startswith line) prompts = []
    end.
Proof.
  eexists. split; [field_value|].
  unfold Re.re_match.
  replace (Re.parse _) with (Some prompts) by (by vm_compute).
  unfold prompts. cbn [mbind option_bind List.find List.filter].
  destruct (startswith line ">>> ") eqn:E1.
  { apply startswith_spec in E1 as [rest ->].
    split; [set_solver|]. split; [by exists rest|]. by vm_compute. }
  destruct (startswith line "... ") eqn:E2.
  { apply startswith_spec in E2 as [rest ->].
    split; [set_solver|]. split; [by exists rest|]. by vm_compute. }
  destruct (startswith line "$ ") eqn:E3.
  { apply startswith_spec in E3 as [rest ->].
    split; [set_solver|]. split; [by exists rest|]. by vm_compute. }
  destruct (startswith line "> ") eqn:E4.
  { apply startswith_spec in E4 as [rest ->].
    split; [set_solver|]. split; [by exists rest|]. by vm_compute. }
  reflexivity.
Qed.

(** X8: however often the hook is invoked, and whatever it is given, the
    namespace stays as it was and no store is recorded. *)
Theorem setup_never_stores (n : nat) (s : state) (app : value) :
  globals (invoke_times n app s) = globals s ∧
  stored_names (trace (invoke_times n app s)) = stored_names (trace s).
Proof.
  revert s. induction n as [|n IH]; intros s; [done|].
  cbn [invoke_times]. destruct (IH (setup app s).2) as [-> ->].
  by rewrite setup_globals, setup_stored_names.
Qed.

(** * Relations between configuration values *)

(** X9: the logo and the favicon lie in the one directory listed in
    [html_static_path]: each path is that directory, a slash, and a file
    name. *)
Theorem static_assets_under_static_path (s : state) :
  ∃ dir : string,
    config_value s "html_static_path" = Some (VList [VStr dir]) ∧
    config_value s "html_logo" = Some (VStr (dir +:+ "/" +:+ "logo.png")) ∧
    config_value s "html_favicon" = Some (VStr (dir +:+ "/" +:+ "favicon.ico")).
Proof.
  exists "_static". split; [field_value|]. split; field_value.
Qed.

(** X10: the project metadata agree with one another: the author is the
    project name followed by ' Contributors', the copyright line is the
    year 2025 and the author, and the HTML title is the project name
    followed by ' Documentation'. *)
Theorem project_metadata_agree (s : state) :
  ∃ name author : string,
    config_value s "project" = Some (VStr name) ∧
    config_value s "author" = Some (VStr author) ∧
    author = name +:+ " Contributors" ∧
    config_value s "copyright" = Some (VStr ("2025, " +:+ author)) ∧
    config_value s "html_title" = Some (VStr (name +:+ " Documentation")).
Proof.
  exists "Lankir", "Lankir Contributors".
  split; [field_value|]. split; [field_value|]. split; [reflexivity|].
  split; field_value.
Qed.

(** X11: no key of the two option dictionaries is written twice, so every
    entry of the source is kept: [html_theme_options] has the nine keys and
    [html_context] the five keys of the file, each bound to the value
    written next to it, and the two highlighting styles are the same. *)
Theorem option_dictionaries_keep_every_entry (s : state) :
  (∃ d : gmap string value,
     config_value s "html_theme_options" = Some (VDict d) ∧
     size d = 9 ∧
     Forall (λ kv, d !! kv.1 = Some kv.2)
       [("logo_only", VBool false);
        ("display_version", VBool true);
        ("prev_next_buttons_location", VStr "bottom");
        ("style_external_links", VBool true);
        ("collapse_navigation", VBool false);
        ("sticky_navigation", VBool true);
        ("navigation_depth", VInt 4);
        ("includehidden", VBool true);
        ("titles_only", VBool false)]) ∧
  (∃ d : gmap string value,
     config_value s "html_context" = Some (VDict d) ∧
     size d = 5 ∧
     Forall (λ kv, d !! kv.1 = Some kv.2)
       [("display_github", VBool true);
        ("github_user", VStr "Matbe34");
        ("github_repo", VStr "lankir");
        ("github_version", VStr "main");
        ("conf_py_path", VStr "/docs/")]) ∧
  config_value s "pygments_style" = config_value s "pygments_dark_style".
Proof.
  split; [|split].
  - eexists. split; [field_value|]. split; [by vm_compute|].
    repeat (apply Forall_cons_2; [by vm_compute|]). apply Forall_nil_2.
  - eexists. split; [field_value|]. split; [by vm_compute|].
    repeat (apply Forall_cons_2; [by vm_compute|]). apply Forall_nil_2.
  - rewrite (config_value_load s "pygments_style") by is_field.
    rewrite (config_value_load s "pygments_dark_style") by is_field.
    by vm_compute.
Qed.
